(** * boltzgen.utils.device: device selection helpers over the torch runtime

    A shallow embedding of [src/boltzgen/utils/device.py].  The module is
    glue code over the torch runtime, so the embedding has three layers:

    - [Py]: the fragment of Python the module relies on (exception classes
      with their inheritance, outcomes of calls, a state-and-exception
      monad, [try ... except]);
    - [Torch]: the runtime the module talks to.  Each torch entry point the
      source calls is an operation that records the call in the world's
      call log and answers from the runtime's responses;
    - [Device]: the six functions of the module, statement by statement. *)

From Stdlib Require Import String List ZArith NArith Bool Lia.
Import ListNotations.
Open Scope string_scope.
Open Scope list_scope.

(* ===================================================================== *)
(** ** Python fragment *)
(* ===================================================================== *)

Module Py.

(** Exception classes that a torch call made by the module can raise,
    with the builtin inheritance tree ([OutOfMemoryError] is
    [torch.cuda.OutOfMemoryError], a subclass of [RuntimeError]). *)
Inductive exc_class : Type :=
| BaseException
| Exception
| RuntimeError
| NotImplementedError
| RecursionError
| OutOfMemoryError
| TypeError
| AttributeError
| AssertionError
| KeyboardInterrupt.

Definition exc_class_eqb (c d : exc_class) : bool :=
  match c, d with
  | BaseException, BaseException
  | Exception, Exception
  | RuntimeError, RuntimeError
  | NotImplementedError, NotImplementedError
  | RecursionError, RecursionError
  | OutOfMemoryError, OutOfMemoryError
  | TypeError, TypeError
  | AttributeError, AttributeError
  | AssertionError, AssertionError
  | KeyboardInterrupt, KeyboardInterrupt => true
  | _, _ => false
  end.

(** Direct base class. *)
Definition base (c : exc_class) : option exc_class :=
  match c with
  | BaseException => None
  | Exception | KeyboardInterrupt => Some BaseException
  | RuntimeError | TypeError | AttributeError | AssertionError =>
      Some Exception
  | NotImplementedError | RecursionError | OutOfMemoryError =>
      Some RuntimeError
  end.

(** [issubclass c d], walking up the (depth 3) inheritance chain. *)
Fixpoint issubclass_fuel (fuel : nat) (c d : exc_class) : bool :=
  exc_class_eqb c d ||
  match fuel with
  | O => false
  | S fuel' =>
      match base c with
      | Some b => issubclass_fuel fuel' b d
      | None => false
      end
  end.

Definition issubclass : exc_class -> exc_class -> bool := issubclass_fuel 3.

(** A raised exception: its class and its message. *)
Record exception : Type := Raise_ { exc_type : exc_class; exc_msg : string }.

Definition isinstance (e : exception) (c : exc_class) : bool :=
  issubclass (exc_type e) c.

(** [except (c1, ..., cn)] matches [e]. *)
Definition except_matches (classes : list exc_class) (e : exception) : bool :=
  existsb (isinstance e) classes.

(** What a call does: return a value or raise. *)
Inductive outcome (A : Type) : Type :=
| Ok (a : A)
| Raised (e : exception).
Arguments Ok {A} a.
Arguments Raised {A} e.

Definition is_ok {A} (o : outcome A) : bool :=
  match o with Ok _ => true | Raised _ => false end.

Section Monad.
(** [W] is the state of everything outside the interpreter that a call
    can touch.  Effects performed before an exception is raised stay
    performed, so the state is threaded through [Raised] too. *)
Variable W : Type.

Definition M (A : Type) : Type := W -> outcome A * W.

Definition ret {A} (a : A) : M A := fun w => (Ok a, w).

Definition raise {A} (e : exception) : M A := fun w => (Raised e, w).

Definition bind {A B} (m : M A) (k : A -> M B) : M B :=
  fun w =>
    match m w with
    | (Ok a, w') => k a w'
    | (Raised e, w') => (Raised e, w')
    end.

(** [try: m  except classes: h] *)
Definition try_except {A} (m : M A) (classes : list exc_class)
           (h : exception -> M A) : M A :=
  fun w =>
    match m w with
    | (Ok a, w') => (Ok a, w')
    | (Raised e, w') =>
        if except_matches classes e then h e w' else (Raised e, w')
    end.

Definition fmap {A B} (f : A -> B) (m : M A) : M B :=
  bind m (fun a => ret (f a)).
End Monad.

Arguments ret {W A} a.
Arguments raise {W A} e.
Arguments bind {W A B} m k.
Arguments try_except {W A} m classes h.
Arguments fmap {W A B} f m.

(** [x in l] for a list of strings. *)
Definition str_in (x : string) (l : list string) : bool :=
  existsb (String.eqb x) l.

End Py.

Import Py.

Declare Scope py_scope.
Delimit Scope py_scope with py.
Notation "x <- m ;; k" := (bind m (fun x => k))
  (at level 100, m at next level, right associativity) : py_scope.
Notation "m ;; k" := (bind m (fun _ => k))
  (at level 100, right associativity) : py_scope.
Open Scope py_scope.

(* ===================================================================== *)
(** ** The torch runtime *)
(* ===================================================================== *)

Module Torch.

(** A [torch.device]: its type tag and optional index. *)
Record device : Type := Device { type : string; index : option Z }.

(** Device type names [torch.device] accepts. *)
Definition device_types : list string :=
  ["cpu"; "cuda"; "ipu"; "xpu"; "mkldnn"; "opengl"; "opencl"; "ideep";
   "hip"; "ve"; "fpga"; "maia"; "xla"; "lazy"; "vulkan"; "mps"; "meta";
   "hpu"; "mtia"; "privateuseone"].

(** What the runtime answers to each query the module makes.  These are
    the "runtime responses": hardware, driver and torch version. *)
Record Responses : Type := {
  (** [torch.cuda.is_available()] *)
  cuda_available : bool;
  (** [torch.backends.mps]: [None] when this torch has no such
      attribute, [Some b] when it has and [is_available()] answers [b]. *)
  backends_mps : option bool;
  (** [torch.cuda.device_count()] *)
  cuda_devices : Z;
  (** [torch.cuda.get_device_capability()] *)
  cuda_capability : outcome (Z * Z);
  (** [torch.cuda.empty_cache()] *)
  cuda_cache_clear : outcome unit;
  (** [torch.mps.empty_cache()] *)
  mps_cache_clear : outcome unit;
  (** [torch.autocast(device_type=d)], then [__enter__] and [__exit__]
      of the context manager it built. *)
  autocast_new : string -> outcome unit;
  autocast_enter_resp : string -> outcome unit;
  autocast_exit_resp : string -> outcome unit
}.

(** Calls into the runtime, as they are logged. *)
Inductive call : Type :=
| CudaIsAvailable
| HasattrBackendsMps
| BackendsMpsIsAvailable
| NewDevice (tag : string)
| CudaDeviceCount
| CudaGetDeviceCapability
| CudaEmptyCache
| MpsEmptyCache
| Autocast (device_type : string)
| AutocastEnter (device_type : string)
| AutocastExit (device_type : string).

(** The world: the runtime's responses, the bytes held by the two
    caching allocators, and the calls made so far (oldest first). *)
Record World : Type := {
  responses : Responses;
  cuda_cached : N;
  mps_cached : N;
  calls : list call
}.

Definition log (c : call) : M World unit :=
  fun w => (Ok tt, {| responses := responses w;
                      cuda_cached := cuda_cached w;
                      mps_cached := mps_cached w;
                      calls := calls w ++ [c] |}).

(** Read a response. *)
Definition ask {A} (f : Responses -> A) : M World A :=
  fun w => (Ok (f (responses w)), w).

(** Read a response that may be an exception. *)
Definition answer {A} (f : Responses -> outcome A) : M World A :=
  fun w => (f (responses w), w).

Definition release_cuda_cache : M World unit :=
  fun w => (Ok tt, {| responses := responses w;
                      cuda_cached := 0;
                      mps_cached := mps_cached w;
                      calls := calls w |}).

Definition release_mps_cache : M World unit :=
  fun w => (Ok tt, {| responses := responses w;
                      cuda_cached := cuda_cached w;
                      mps_cached := 0;
                      calls := calls w |}).

(** [torch.cuda.is_available()] *)
Definition cuda_is_available : M World bool :=
  log CudaIsAvailable ;; ask cuda_available.

(** [hasattr(torch.backends, "mps")] *)
Definition hasattr_backends_mps : M World bool :=
  log HasattrBackendsMps ;;
  ask (fun r => match backends_mps r with Some _ => true | None => false end).

(** [torch.backends.mps.is_available()]: the attribute lookup raises
    [AttributeError] on a torch without the backend. *)
Definition backends_mps_is_available : M World bool :=
  log BackendsMpsIsAvailable ;;
  answer (fun r =>
            match backends_mps r with
            | Some b => Ok b
            | None =>
                Raised (Raise_ AttributeError
                          "module 'torch.backends' has no attribute 'mps'")
            end).

(** [torch.device(tag)] for a bare type tag. *)
Definition new_device (tag : string) : M World device :=
  log (NewDevice tag) ;;
  if str_in tag device_types then ret (Device tag None)
  else raise (Raise_ RuntimeError "Expected one of cpu, cuda, ... device type").

(** [torch.cuda.device_count()] *)
Definition cuda_device_count : M World Z :=
  log CudaDeviceCount ;; ask cuda_devices.

(** [torch.cuda.get_device_capability()] *)
Definition cuda_get_device_capability : M World (Z * Z) :=
  log CudaGetDeviceCapability ;; answer cuda_capability.

(** [torch.cuda.empty_cache()]: releases the cached blocks unless it
    raises. *)
Definition cuda_empty_cache : M World unit :=
  log CudaEmptyCache ;; answer cuda_cache_clear ;; release_cuda_cache.

(** [torch.mps.empty_cache()] *)
Definition mps_empty_cache : M World unit :=
  log MpsEmptyCache ;; answer mps_cache_clear ;; release_mps_cache.

(** [with torch.autocast(device_type=d): body].  The context manager is
    built, entered, and left again after the body; its [__exit__] does
    not swallow an exception of the body. *)
Definition with_autocast {A} (d : string) (body : M World A) : M World A :=
  log (Autocast d) ;; answer (fun r => autocast_new r d) ;;
  log (AutocastEnter d) ;; answer (fun r => autocast_enter_resp r d) ;;
  fun w =>
    match body w with
    | (Ok a, w') =>
        (log (AutocastExit d) ;; answer (fun r => autocast_exit_resp r d) ;;
         ret a) w'
    | (Raised e, w') =>
        (log (AutocastExit d) ;; answer (fun r => autocast_exit_resp r d) ;;
         raise e) w'
    end.

End Torch.

Import Torch.

(* ===================================================================== *)
(** ** boltzgen/utils/device.py *)
(* ===================================================================== *)

Module Device.

Definition T := M World.

(** [get_device_type() -> str]: the [and] of the [elif] is
    short-circuit. *)
Definition get_device_type : T string :=
  c <- cuda_is_available ;;
  if c then ret "cuda"
  else
    h <- hasattr_backends_mps ;;
    m <- (if h then backends_mps_is_available else ret false) ;;
    if m then ret "mps"
    else ret "cpu".

(** [get_device() -> torch.device] *)
Definition get_device : T device :=
  t <- get_device_type ;;
  new_device t.

(** [get_device_count() -> int] *)
Definition get_device_count : T Z :=
  device_type <- get_device_type ;;
  if device_type =? "cuda" then cuda_device_count
  else ret 1%Z.

(** [get_device_capability() -> Tuple[int, int]] *)
Definition get_device_capability : T (Z * Z) :=
  device_type <- get_device_type ;;
  if device_type =? "cuda" then cuda_get_device_capability
  else ret (8, 0)%Z.

(** [empty_cache()]: falls off the end, returning [None], here [tt]. *)
Definition empty_cache : T unit :=
  device_type <- get_device_type ;;
  if device_type =? "cuda" then cuda_empty_cache
  else if device_type =? "mps" then mps_empty_cache
  else ret tt.

(** The four [return] statements of [get_autocast_device_type], by
    source line. *)
Inductive return_site : Type :=
| Line94    (* return device_type, in the ["cuda", "cpu"] branch *)
| Line101   (* return "mps", inside the try *)
| Line104   (* return "cpu", in the except clause *)
| Line105.  (* return "cpu", after the if/elif *)

(** The body of [get_autocast_device_type] from line 93 on, for a given
    value of the local [device_type]; every [return] is tagged with the
    statement it is.  The declared type is [Optional[str]]. *)
Definition autocast_device_type_of (device_type : string)
  : T (return_site * option string) :=
  if str_in device_type ["cuda"; "cpu"] then
    ret (Line94, Some device_type)
  else if device_type =? "mps" then
    try_except
      (with_autocast "mps" (ret tt) ;;
       ret (Line101, Some "mps"))
      [RuntimeError; TypeError]
      (fun _ => ret (Line104, Some "cpu"))
  else
    ret (Line105, Some "cpu").

Definition get_autocast_device_type_at : T (return_site * option string) :=
  device_type <- get_device_type ;;
  autocast_device_type_of device_type.

(** [get_autocast_device_type() -> Optional[str]] *)
Definition get_autocast_device_type : T (option string) :=
  fmap snd get_autocast_device_type_at.

End Device.

Import Device.

(* ===================================================================== *)
(** ** Vocabulary of the specification *)
(* ===================================================================== *)

(** What a call returns or raises, and the world it leaves behind. *)
Definition result {A} (m : T A) (w : World) : outcome A := fst (m w).
Definition after {A} (m : T A) (w : World) : World := snd (m w).

(** The probe of [get_autocast_device_type]: enter an autocast scope for
    "mps" and leave it at once. *)
Definition autocast_probe : T unit := with_autocast "mps" (ret tt).

(** The exceptions the probe's [except] clause catches. *)
Definition recoverable (e : exception) : bool :=
  except_matches [RuntimeError; TypeError] e.

(** The functions of the module, and what they return, as Python values. *)
Inductive func : Type :=
| GetDeviceType
| GetDevice
| GetDeviceCount
| GetDeviceCapability
| EmptyCache
| GetAutocastDeviceType.

Inductive value : Type :=
| VNone
| VStr (s : string)
| VInt (n : Z)
| VTuple (a b : Z)
| VDevice (d : device).

Definition invoke (f : func) : T value :=
  match f with
  | GetDeviceType => fmap VStr get_device_type
  | GetDevice => fmap VDevice get_device
  | GetDeviceCount => fmap VInt get_device_count
  | GetDeviceCapability =>
      fmap (fun c => VTuple (fst c) (snd c)) get_device_capability
  | EmptyCache => fmap (fun _ => VNone) empty_cache
  | GetAutocastDeviceType =>
      fmap (fun o => match o with Some s => VStr s | None => VNone end)
           get_autocast_device_type
  end.

(** Runtimes for concrete scenarios. *)
Module Fake.

Definition unsupported : exception :=
  Raise_ RuntimeError "User specified an unsupported autocast device_type 'mps'".

Definition no_gpus : exception :=
  Raise_ RuntimeError "No CUDA GPUs are available".

Definition driver_fault : exception :=
  Raise_ RuntimeError "CUDA error: unspecified launch failure".

Definition no_torch_mps : exception :=
  Raise_ AttributeError "module 'torch' has no attribute 'mps'".

Definition interrupted : exception :=
  Raise_ KeyboardInterrupt "".

(** A machine without accelerators, current torch. *)
Definition cpu_only : Responses := {|
  cuda_available := false;
  backends_mps := Some false;
  cuda_devices := 0;
  cuda_capability := Raised no_gpus;
  cuda_cache_clear := Ok tt;
  mps_cache_clear := Ok tt;
  autocast_new := fun _ => Ok tt;
  autocast_enter_resp := fun _ => Ok tt;
  autocast_exit_resp := fun _ => Ok tt |}.

(** The same machine on a torch that predates [torch.backends.mps]. *)
Definition cpu_old_torch : Responses := {|
  cuda_available := false;
  backends_mps := None;
  cuda_devices := 0;
  cuda_capability := Raised no_gpus;
  cuda_cache_clear := Ok tt;
  mps_cache_clear := Raised no_torch_mps;
  autocast_new := fun d => if d =? "mps" then Raised unsupported else Ok tt;
  autocast_enter_resp := fun _ => Ok tt;
  autocast_exit_resp := fun _ => Ok tt |}.

(** [n] CUDA devices of compute capability [cap]; MPS as given. *)
Definition cuda (n : Z) (cap : Z * Z) (mps : option bool) : Responses := {|
  cuda_available := true;
  backends_mps := mps;
  cuda_devices := n;
  cuda_capability := Ok cap;
  cuda_cache_clear := Ok tt;
  mps_cache_clear := Ok tt;
  autocast_new := fun _ => Ok tt;
  autocast_enter_resp := fun _ => Ok tt;
  autocast_exit_resp := fun _ => Ok tt |}.

(** CUDA reported available, but no device is visible. *)
Definition cuda_no_device : Responses := {|
  cuda_available := true;
  backends_mps := Some false;
  cuda_devices := 0;
  cuda_capability := Raised no_gpus;
  cuda_cache_clear := Ok tt;
  mps_cache_clear := Ok tt;
  autocast_new := fun _ => Ok tt;
  autocast_enter_resp := fun _ => Ok tt;
  autocast_exit_resp := fun _ => Ok tt |}.

(** CUDA whose cache release fails. *)
Definition cuda_clear_fails : Responses := {|
  cuda_available := true;
  backends_mps := Some false;
  cuda_devices := 1;
  cuda_capability := Ok (9, 0)%Z;
  cuda_cache_clear := Raised driver_fault;
  mps_cache_clear := Ok tt;
  autocast_new := fun _ => Ok tt;
  autocast_enter_resp := fun _ => Ok tt;
  autocast_exit_resp := fun _ => Ok tt |}.

(** Apple silicon; the autocast scope answers as given. *)
Definition mps (new enter exit : outcome unit) (clear : outcome unit)
  : Responses := {|
  cuda_available := false;
  backends_mps := Some true;
  cuda_devices := 0;
  cuda_capability := Raised no_gpus;
  cuda_cache_clear := Ok tt;
  mps_cache_clear := clear;
  autocast_new := fun d => if d =? "mps" then new else Ok tt;
  autocast_enter_resp := fun d => if d =? "mps" then enter else Ok tt;
  autocast_exit_resp := fun d => if d =? "mps" then exit else Ok tt |}.

(** A world with the given responses and caches, before any call. *)
Definition boot (r : Responses) (cuda_bytes mps_bytes : N) : World :=
  {| responses := r; cuda_cached := cuda_bytes; mps_cached := mps_bytes;
     calls := [] |}.

End Fake.

(** The world [w] with further calls logged. *)
Definition logged (w : World) (cs : list call) : World :=
  {| responses := responses w;
     cuda_cached := cuda_cached w;
     mps_cached := mps_cached w;
     calls := calls w ++ cs |}.

(** The tag that the priority order picks, and the calls it takes to find
    out, read off the responses. *)
Definition selected (r : Responses) : string :=
  if cuda_available r then "cuda"
  else match backends_mps r with
       | Some true => "mps"
       | _ => "cpu"
       end.

Definition selection_calls (r : Responses) : list call :=
  if cuda_available r then [CudaIsAvailable]
  else match backends_mps r with
       | Some _ => [CudaIsAvailable; HasattrBackendsMps; BackendsMpsIsAvailable]
       | None => [CudaIsAvailable; HasattrBackendsMps]
       end.

(** A computation is a function of the runtime's responses when worlds
    with the same responses give it the same outcome, and it leaves the
    responses as they are. *)
Definition stable {A} (m : T A) : Prop :=
  forall w1 w2,
    responses w1 = responses w2 ->
    result m w1 = result m w2 /\ responses (after m w1) = responses w1.

(** A computation that leaves both allocator caches alone. *)
Definition keeps_caches {A} (m : T A) : Prop :=
  forall w,
    cuda_cached (after m w) = cuda_cached w /\
    mps_cached (after m w) = mps_cached w.

(** The bytes held by the two allocator caches. *)
Definition caches (w : World) : N * N := (cuda_cached w, mps_cached w).

(** The calls of the probe, by how far it gets: building the scope,
    entering it, leaving it. *)
Definition probe_calls (r : Responses) : list call :=
  match autocast_new r "mps" with
  | Raised _ => [Autocast "mps"]
  | Ok _ =>
      match autocast_enter_resp r "mps" with
      | Raised _ => [Autocast "mps"; AutocastEnter "mps"]
      | Ok _ => [Autocast "mps"; AutocastEnter "mps"; AutocastExit "mps"]
      end
  end.

(** The calls a function of the module makes, read off the responses. *)
Definition trace (f : func) (r : Responses) : list call :=
  selection_calls r ++
  match f with
  | GetDeviceType => []
  | GetDevice => [NewDevice (selected r)]
  | GetDeviceCount =>
      if selected r =? "cuda" then [CudaDeviceCount] else []
  | GetDeviceCapability =>
      if selected r =? "cuda" then [CudaGetDeviceCapability] else []
  | EmptyCache =>
      if selected r =? "cuda" then [CudaEmptyCache]
      else if selected r =? "mps" then [MpsEmptyCache]
      else []
  | GetAutocastDeviceType =>
      if selected r =? "mps" then probe_calls r else []
  end.

(** Calls that look for the MPS backend, calls that use it, and calls
    into [torch.cuda] that need a CUDA runtime. *)
Definition mps_lookup (c : call) : bool :=
  match c with
  | HasattrBackendsMps | BackendsMpsIsAvailable => true
  | _ => false
  end.

Definition mps_use (c : call) : bool :=
  match c with
  | MpsEmptyCache => true
  | Autocast d | AutocastEnter d | AutocastExit d => d =? "mps"
  | _ => false
  end.

Definition cuda_use (c : call) : bool :=
  match c with
  | CudaDeviceCount | CudaGetDeviceCapability | CudaEmptyCache => true
  | _ => false
  end.

(** No call of [cs] is of the kind [p]. *)
Definition none_of (p : call -> bool) (cs : list call) : bool :=
  forallb (fun c => negb (p c)) cs.

(* ===================================================================== *)
(** ** Running the module *)
(* ===================================================================== *)

Section Runs.

Variable w : World.
Let r := responses w.

(** One equation for the whole of [get_device_type]. *)
Lemma get_device_type_run :
  get_device_type w = (Ok (selected r), logged w (selection_calls r)).
Proof.
  subst r. unfold get_device_type, selected, selection_calls, logged.
  destruct w as [[ca bm n cap cc mc an ae ax] cb mb cs]; simpl.
  destruct ca, bm as [[|]|]; cbn; rewrite <- ?app_assoc; reflexivity.
Qed.

Lemma result_get_device_type :
  result get_device_type w = Ok (selected r).
Proof. unfold result. now rewrite get_device_type_run. Qed.

Lemma after_get_device_type :
  after get_device_type w = logged w (selection_calls r).
Proof. unfold after. now rewrite get_device_type_run. Qed.

Lemma selected_cases :
  selected r = "cuda" \/ selected r = "mps" \/ selected r = "cpu".
Proof.
  unfold selected. destruct (cuda_available r); auto.
  destruct (backends_mps r) as [[|]|]; auto.
Qed.

End Runs.

Lemma bind_run {A B} (m : T A) (k : A -> T B) (w : World) a w' :
  m w = (Ok a, w') -> bind m k w = k a w'.
Proof. intros H. unfold bind. now rewrite H. Qed.

(** Rewrite the leading [get_device_type] of a function of the module. *)
Ltac probe_type w :=
  unfold result, after;
  repeat (erewrite bind_run by apply get_device_type_run);
  rewrite ?get_device_type_run; cbn [fst snd];
  pose proof (selected_cases w) as Hsel.

(* ===================================================================== *)
(** ** Properties *)
(* ===================================================================== *)

(** C1. In every world [get_device_type] returns (it never raises) one of
    "cuda", "mps", "cpu": "cuda" whenever [torch.cuda.is_available()] answers
    true, whatever the MPS backend says; otherwise "mps" when the MPS
    backend answers true; otherwise "cpu". *)
Theorem get_device_type_priority (w : World) :
  (exists tag, result get_device_type w = Ok tag
               /\ In tag ["cuda"; "mps"; "cpu"]) /\
  (cuda_available (responses w) = true ->
   result get_device_type w = Ok "cuda") /\
  (cuda_available (responses w) = false ->
   backends_mps (responses w) = Some true ->
   result get_device_type w = Ok "mps") /\
  (cuda_available (responses w) = false ->
   backends_mps (responses w) <> Some true ->
   result get_device_type w = Ok "cpu").
Proof.
  rewrite result_get_device_type. unfold selected.
  repeat split.
  - exists (selected (responses w)). split; [reflexivity|].
    destruct (selected_cases w) as [H|[H|H]]; rewrite H; simpl; auto.
  - now intros ->.
  - now intros -> ->.
  - intros -> H. destruct (backends_mps (responses w)) as [[|]|];
      congruence.
Qed.

Lemma get_device_type_priority_witness :
  result get_device_type (Fake.boot (Fake.cuda 2 (9, 0)%Z (Some true)) 0 0)
  = Ok "cuda" /\
  result get_device_type
    (Fake.boot (Fake.mps (Ok tt) (Ok tt) (Ok tt) (Ok tt)) 0 0) = Ok "mps" /\
  result get_device_type (Fake.boot Fake.cpu_only 0 0) = Ok "cpu".
Proof.
  split; [|split].
  - apply (proj1 (proj2 (get_device_type_priority _))). reflexivity.
  - apply (proj1 (proj2 (proj2 (get_device_type_priority _)))); reflexivity.
  - apply (proj2 (proj2 (proj2 (get_device_type_priority _)))).
    + reflexivity.
    + simpl. discriminate.
Defined.

(** C6. In every world [get_device] returns a device built by
    [torch.device] from the tag [get_device_type] returns in that world:
    the handle's type tag is that string. *)
Theorem get_device_type_tag (w : World) :
  exists tag d,
    result get_device_type w = Ok tag /\
    get_device w = new_device tag (after get_device_type w) /\
    result get_device w = Ok d /\
    type d = tag.
Proof.
  exists (selected (responses w)), (Device (selected (responses w)) None).
  split; [apply result_get_device_type|].
  unfold get_device. probe_type w.
  split; [reflexivity|]. split; [|reflexivity].
  destruct Hsel as [H|[H|H]]; rewrite H; reflexivity.
Qed.

(** An unguarded [torch.backends.mps.is_available()] raises on a torch
    without the backend. *)
Lemma backends_mps_missing (w : World) :
  backends_mps (responses w) = None ->
  exists msg,
    result backends_mps_is_available w = Raised (Raise_ AttributeError msg).
Proof.
  intros H. eexists. unfold result, backends_mps_is_available, bind, log, answer.
  simpl. rewrite H. reflexivity.
Qed.

(** C7. On a torch without [torch.backends.mps], with CUDA unavailable,
    [get_device_type] returns "cpu" and does not raise: it asks [hasattr]
    first and then leaves the backend's [is_available] alone.  In every
    world, [is_available] of the backend is called only where the
    attribute exists, and right after the [hasattr] test. *)
Theorem get_device_type_guards_mps (w : World) :
  (cuda_available (responses w) = false ->
   backends_mps (responses w) = None ->
   result get_device_type w = Ok "cpu" /\
   calls (after get_device_type w)
   = calls w ++ [CudaIsAvailable; HasattrBackendsMps]) /\
  (exists cs,
     calls (after get_device_type w) = calls w ++ cs /\
     (In BackendsMpsIsAvailable cs ->
      backends_mps (responses w) <> None /\
      cs = [CudaIsAvailable; HasattrBackendsMps; BackendsMpsIsAvailable])).
Proof.
  rewrite result_get_device_type, after_get_device_type.
  unfold selected, selection_calls. split.
  - intros -> ->. split; reflexivity.
  - eexists. split; [reflexivity|].
    destruct (cuda_available (responses w)).
    + simpl. intros [H|[]]. discriminate.
    + destruct (backends_mps (responses w)).
      * intros _. split; [discriminate | reflexivity].
      * simpl. intros [H|[H|[]]]; discriminate.
Qed.

Lemma get_device_type_guards_mps_witness :
  result get_device_type (Fake.boot Fake.cpu_old_torch 0 0) = Ok "cpu" /\
  calls (after get_device_type (Fake.boot Fake.cpu_old_torch 0 0))
  = [CudaIsAvailable; HasattrBackendsMps].
Proof.
  apply (proj1 (get_device_type_guards_mps (Fake.boot Fake.cpu_old_torch 0 0)));
    reflexivity.
Defined.

(** C3. [get_device_count] returns 1 whenever [get_device_type] returns
    "mps" or "cpu"; when it returns "cuda", [get_device_count] returns what
    [torch.cuda.device_count()] reports, a count of 0 included. *)
Theorem get_device_count_spec (w : World) :
  (result get_device_type w = Ok "mps" \/ result get_device_type w = Ok "cpu"
   -> result get_device_count w = Ok 1%Z) /\
  (result get_device_type w = Ok "cuda" ->
   get_device_count w = cuda_device_count (after get_device_type w) /\
   result get_device_count w = Ok (cuda_devices (responses w))) /\
  (result get_device_type w = Ok "cuda" ->
   cuda_devices (responses w) = 0%Z ->
   result get_device_count w = Ok 0%Z).
Proof.
  rewrite result_get_device_type. unfold get_device_count. probe_type w.
  repeat split.
  - intros [H|H]; injection H as ->; reflexivity.
  - injection H as ->. reflexivity.
  - injection H as ->. reflexivity.
  - intros H H0. injection H as ->. simpl. now rewrite H0.
Qed.

Lemma get_device_count_spec_witness :
  result get_device_count
    (Fake.boot (Fake.mps (Ok tt) (Ok tt) (Ok tt) (Ok tt)) 0 0) = Ok 1%Z /\
  result get_device_count (Fake.boot (Fake.cuda 2 (9, 0)%Z None) 0 0)
  = Ok 2%Z /\
  result get_device_count (Fake.boot Fake.cuda_no_device 0 0) = Ok 0%Z.
Proof.
  split; [|split].
  - apply (proj1 (get_device_count_spec _)). left. reflexivity.
  - apply (proj1 (proj2 (get_device_count_spec
                           (Fake.boot (Fake.cuda 2 (9, 0)%Z None) 0 0)))).
    reflexivity.
  - apply (proj2 (proj2 (get_device_count_spec _))); reflexivity.
Defined.

(** C4. [get_device_capability] returns (8, 0) whenever [get_device_type]
    returns "mps" or "cpu"; when it returns "cuda", [get_device_capability]
    is the call [torch.cuda.get_device_capability()] and returns the pair
    that call reports. *)
Theorem get_device_capability_spec (w : World) :
  (result get_device_type w = Ok "mps" \/ result get_device_type w = Ok "cpu"
   -> result get_device_capability w = Ok (8, 0)%Z) /\
  (result get_device_type w = Ok "cuda" ->
   get_device_capability w
   = cuda_get_device_capability (after get_device_type w) /\
   forall major minor,
     result cuda_get_device_capability (after get_device_type w)
     = Ok (major, minor) ->
     result get_device_capability w = Ok (major, minor)).
Proof.
  rewrite result_get_device_type. unfold get_device_capability.
  probe_type w. repeat split.
  - intros [H|H]; injection H as ->; reflexivity.
  - injection H as ->. reflexivity.
  - injection H as ->. simpl. auto.
Qed.

Lemma get_device_capability_spec_witness :
  result get_device_capability (Fake.boot Fake.cpu_only 0 0) = Ok (8, 0)%Z /\
  result get_device_capability
    (Fake.boot (Fake.cuda 2 (9, 0)%Z (Some true)) 0 0) = Ok (9, 0)%Z.
Proof.
  split.
  - apply (proj1 (get_device_capability_spec _)). right. reflexivity.
  - apply (proj2 (get_device_capability_spec _)); reflexivity.
Defined.

(** C10. With CUDA reported available and zero devices,
    [get_device_count] returns 0 and [get_device_capability] still makes
    the capability query, without asking for the device count; whatever
    exception that query raises is what [get_device_capability] raises. *)
Theorem get_device_capability_unguarded (w : World) :
  cuda_available (responses w) = true ->
  cuda_devices (responses w) = 0%Z ->
  result get_device_count w = Ok 0%Z /\
  calls (after get_device_capability w)
  = calls w ++ [CudaIsAvailable; CudaGetDeviceCapability] /\
  forall e,
    cuda_capability (responses w) = Raised e ->
    result get_device_capability w = Raised e.
Proof.
  intros Ha Hn. unfold get_device_count, get_device_capability.
  probe_type w. unfold selected, selection_calls. rewrite Ha. simpl.
  rewrite Hn. repeat split.
  - now rewrite <- app_assoc.
  - now intros e ->.
Qed.

Lemma get_device_capability_unguarded_witness :
  result get_device_count (Fake.boot Fake.cuda_no_device 0 0) = Ok 0%Z /\
  calls (after get_device_capability (Fake.boot Fake.cuda_no_device 0 0))
  = [CudaIsAvailable; CudaGetDeviceCapability] /\
  result get_device_capability (Fake.boot Fake.cuda_no_device 0 0)
  = Raised Fake.no_gpus.
Proof.
  destruct (get_device_capability_unguarded
              (Fake.boot Fake.cuda_no_device 0 0) eq_refl eq_refl)
    as (Hc & Ht & He).
  split; [exact Hc|]. split; [exact Ht|].
  apply He. reflexivity.
Defined.

(** The probe run on its own: when it succeeds it has built, entered and
    left exactly one autocast scope for "mps". *)
Lemma autocast_probe_calls (w : World) :
  result autocast_probe w = Ok tt ->
  calls (after autocast_probe w)
  = calls w ++ [Autocast "mps"; AutocastEnter "mps"; AutocastExit "mps"].
Proof.
  unfold result, after, autocast_probe, with_autocast, bind, log, answer, ret.
  simpl.
  destruct (autocast_new (responses w) "mps"); [|discriminate].
  destruct (autocast_enter_resp (responses w) "mps"); [|discriminate].
  simpl.
  destruct (autocast_exit_resp (responses w) "mps"); [|discriminate].
  simpl. intros _. now rewrite <- !app_assoc.
Qed.

(** [get_autocast_device_type] on a world where the tag is "mps", in terms
    of the probe. *)
Lemma autocast_device_type_of_mps (w : World) :
  autocast_device_type_of "mps" w
  = match autocast_probe w with
    | (Ok _, w') => (Ok (Line101, Some "mps"), w')
    | (Raised e, w') =>
        if recoverable e then (Ok (Line104, Some "cpu"), w')
        else (Raised e, w')
    end.
Proof.
  unfold autocast_device_type_of.
  change (str_in "mps" ["cuda"; "cpu"]) with false.
  change ("mps" =? "mps") with true. cbv iota.
  unfold try_except, bind, autocast_probe, recoverable.
  destruct (with_autocast "mps" (ret tt) w) as [[u|e] w']; reflexivity.
Qed.

Lemma get_autocast_device_type_run (w : World) :
  get_autocast_device_type w
  = match autocast_device_type_of (selected (responses w))
            (after get_device_type w) with
    | (Ok sv, w') => (Ok (snd sv), w')
    | (Raised e, w') => (Raised e, w')
    end.
Proof.
  unfold get_autocast_device_type, fmap, get_autocast_device_type_at.
  unfold bind at 1. erewrite bind_run by apply get_device_type_run.
  rewrite after_get_device_type. reflexivity.
Qed.

Lemma get_autocast_device_type_direct (w : World) :
  selected (responses w) = "cuda" \/ selected (responses w) = "cpu" ->
  get_autocast_device_type w
  = (Ok (Some (selected (responses w))), after get_device_type w).
Proof.
  intros H. rewrite get_autocast_device_type_run.
  destruct H as [H|H]; rewrite H; reflexivity.
Qed.

Lemma get_autocast_device_type_mps (w : World) :
  selected (responses w) = "mps" ->
  get_autocast_device_type w
  = match autocast_probe (after get_device_type w) with
    | (Ok _, w') => (Ok (Some "mps"), w')
    | (Raised e, w') =>
        if recoverable e then (Ok (Some "cpu"), w') else (Raised e, w')
    end.
Proof.
  intros H. rewrite get_autocast_device_type_run, H.
  rewrite autocast_device_type_of_mps.
  destruct (autocast_probe (after get_device_type w)) as [[u|e] w'];
    [reflexivity|].
  destruct (recoverable e); reflexivity.
Qed.

(** C2. [get_autocast_device_type] returns the tag itself when
    [get_device_type] returns "cuda" or "cpu".  When that is "mps" it runs
    the probe (build, enter and leave an autocast scope for "mps") and
    returns "mps" if the probe succeeds, "cpu" if the probe raises a
    [RuntimeError] or a [TypeError] (subclasses included).  It never
    returns [None], and it never raises a [RuntimeError] or a
    [TypeError]. *)
Theorem get_autocast_device_type_spec (w : World) :
  (result get_device_type w = Ok "cuda" ->
   result get_autocast_device_type w = Ok (Some "cuda")) /\
  (result get_device_type w = Ok "cpu" ->
   result get_autocast_device_type w = Ok (Some "cpu")) /\
  (result get_device_type w = Ok "mps" ->
   after get_autocast_device_type w
   = after autocast_probe (after get_device_type w) /\
   (result autocast_probe (after get_device_type w) = Ok tt ->
    result get_autocast_device_type w = Ok (Some "mps")) /\
   (forall e,
      result autocast_probe (after get_device_type w) = Raised e ->
      recoverable e = true ->
      result get_autocast_device_type w = Ok (Some "cpu"))) /\
  result get_autocast_device_type w <> Ok None /\
  (forall e,
     result get_autocast_device_type w = Raised e -> recoverable e = false).
Proof.
  unfold result, after.
  destruct (selected_cases w) as [H|[H|H]].
  1, 3: rewrite get_autocast_device_type_direct by auto;
    rewrite get_device_type_run, H; simpl;
    repeat split; intros; try discriminate; congruence.
  rewrite (get_autocast_device_type_mps w H).
  rewrite get_device_type_run, H. unfold after. rewrite get_device_type_run.
  simpl fst at 1 2 3. simpl snd.
  destruct (autocast_probe (logged w (selection_calls (responses w))))
    as [[[]|e] w'] eqn:E;
    simpl; [|destruct (recoverable e) eqn:R; simpl];
    repeat split; intros; simpl; try discriminate; try congruence.
Qed.

Lemma get_autocast_device_type_spec_witness :
  result get_autocast_device_type
    (Fake.boot (Fake.mps (Ok tt) (Ok tt) (Ok tt) (Ok tt)) 0 0)
  = Ok (Some "mps") /\
  result get_autocast_device_type
    (Fake.boot (Fake.mps (Raised Fake.unsupported) (Ok tt) (Ok tt) (Ok tt)) 0 0)
  = Ok (Some "cpu") /\
  result get_autocast_device_type (Fake.boot Fake.cpu_only 0 0)
  = Ok (Some "cpu") /\
  result get_autocast_device_type
    (Fake.boot (Fake.cuda 1 (8, 6)%Z None) 0 0) = Ok (Some "cuda").
Proof.
  split; [|split; [|split]].
  - apply (proj1 (proj2 (proj2 (get_autocast_device_type_spec _))));
      reflexivity.
  - apply (proj2 (proj2 (proj1 (proj2 (proj2
             (get_autocast_device_type_spec
                (Fake.boot (Fake.mps (Raised Fake.unsupported)
                                     (Ok tt) (Ok tt) (Ok tt)) 0 0))))
             eq_refl)) Fake.unsupported); reflexivity.
  - apply (proj1 (proj2 (get_autocast_device_type_spec _))). reflexivity.
  - apply (proj1 (get_autocast_device_type_spec _)). reflexivity.
Defined.

(** The last [return "cpu"] is live code for the body as such: a tag
    outside the three reaches it. *)
Lemma autocast_device_type_of_other (w : World) :
  autocast_device_type_of "xpu" w = (Ok (Line105, Some "cpu"), w).
Proof. reflexivity. Qed.

(** C9. No call of [get_autocast_device_type] returns through the final
    [return "cpu"] of line 105: the tag [get_device_type] hands over always
    satisfies the test of the [if] or that of the [elif].  What the
    function returns is "cuda", "mps" or "cpu", and each of the three is
    returned in some world. *)
Theorem get_autocast_device_type_fallback_dead :
  (forall w v, result get_autocast_device_type_at w <> Ok (Line105, v)) /\
  (forall w, exists tag,
      result get_device_type w = Ok tag /\
      (str_in tag ["cuda"; "cpu"] = true \/
       str_in tag ["cuda"; "cpu"] = false /\ (tag =? "mps") = true)) /\
  (forall w v,
      result get_autocast_device_type w = Ok v ->
      In v [Some "cuda"; Some "mps"; Some "cpu"]) /\
  (exists w, result get_autocast_device_type w = Ok (Some "cuda")) /\
  (exists w, result get_autocast_device_type w = Ok (Some "mps")) /\
  (exists w, result get_autocast_device_type w = Ok (Some "cpu")).
Proof.
  split; [|split; [|split; [|split; [|split]]]].
  - intros w v. unfold result, get_autocast_device_type_at.
    erewrite bind_run by apply get_device_type_run.
    destruct (selected_cases w) as [H|[H|H]]; rewrite H;
      try (simpl; discriminate).
    rewrite autocast_device_type_of_mps.
    destruct (autocast_probe _) as [[u|e] w']; [simpl; discriminate|].
    destruct (recoverable e); simpl; discriminate.
  - intros w. exists (selected (responses w)).
    split; [apply result_get_device_type|].
    destruct (selected_cases w) as [H|[H|H]]; rewrite H; simpl; auto.
  - intros w v. unfold result.
    destruct (selected_cases w) as [H|[H|H]].
    1, 3: rewrite get_autocast_device_type_direct, H by auto; simpl;
      intros E; injection E as <-; auto.
    rewrite (get_autocast_device_type_mps w H).
    destruct (autocast_probe _) as [[u|e] w'];
      [|destruct (recoverable e)]; simpl;
      intros E; try discriminate; injection E as <-; auto.
  - exists (Fake.boot (Fake.cuda 1 (8, 6)%Z None) 0 0). reflexivity.
  - exists (Fake.boot (Fake.mps (Ok tt) (Ok tt) (Ok tt) (Ok tt)) 0 0).
    reflexivity.
  - exists (Fake.boot Fake.cpu_only 0 0). reflexivity.
Qed.

Lemma get_autocast_device_type_fallback_dead_witness :
  result get_autocast_device_type
    (Fake.boot (Fake.mps (Ok tt) (Raised Fake.unsupported) (Ok tt) (Ok tt))
               0 0) = Ok (Some "cpu") /\
  In (Some "cpu") [Some "cuda"; Some "mps"; Some "cpu"].
Proof.
  split; [reflexivity|].
  apply (proj1 (proj2 (proj2 get_autocast_device_type_fallback_dead))
           (Fake.boot (Fake.mps (Ok tt) (Raised Fake.unsupported) (Ok tt)
                                (Ok tt)) 0 0)).
  reflexivity.
Defined.

(** [empty_cache] raises where the cache release of the selected
    accelerator raises: here CUDA is selected and
    [torch.cuda.empty_cache()] fails with a driver fault. *)
Lemma empty_cache_raises :
  result get_device_type (Fake.boot Fake.cuda_clear_fails 4096 0) = Ok "cuda" /\
  result cuda_empty_cache (Fake.boot Fake.cuda_clear_fails 4096 0)
  = Raised Fake.driver_fault /\
  result empty_cache (Fake.boot Fake.cuda_clear_fails 4096 0)
  = Raised Fake.driver_fault /\
  ~ (forall w, is_ok (result empty_cache w) = true).
Proof.
  repeat split.
  intros H. specialize (H (Fake.boot Fake.cuda_clear_fails 4096 0)).
  discriminate H.
Qed.

(** [empty_cache] after its first statement. *)
Lemma empty_cache_run (w : World) :
  empty_cache w
  = (if selected (responses w) =? "cuda" then cuda_empty_cache
     else if selected (responses w) =? "mps" then mps_empty_cache
     else ret tt) (after get_device_type w).
Proof.
  unfold empty_cache. erewrite bind_run by apply get_device_type_run.
  now rewrite after_get_device_type.
Qed.

Lemma cuda_empty_cache_run (w : World) :
  cuda_empty_cache w
  = match cuda_cache_clear (responses w) with
    | Ok _ => (Ok tt, {| responses := responses w;
                         cuda_cached := 0;
                         mps_cached := mps_cached w;
                         calls := calls w ++ [CudaEmptyCache] |})
    | Raised e => (Raised e, logged w [CudaEmptyCache])
    end.
Proof.
  unfold cuda_empty_cache, bind, log, answer, release_cuda_cache; simpl.
  destruct (cuda_cache_clear (responses w)); reflexivity.
Qed.

Lemma mps_empty_cache_run (w : World) :
  mps_empty_cache w
  = match mps_cache_clear (responses w) with
    | Ok _ => (Ok tt, {| responses := responses w;
                         cuda_cached := cuda_cached w;
                         mps_cached := 0;
                         calls := calls w ++ [MpsEmptyCache] |})
    | Raised e => (Raised e, logged w [MpsEmptyCache])
    end.
Proof.
  unfold mps_empty_cache, bind, log, answer, release_mps_cache; simpl.
  destruct (mps_cache_clear (responses w)); reflexivity.
Qed.

(** C5, as the code has it.  [empty_cache] is [torch.cuda.empty_cache()]
    when [get_device_type] returns "cuda", [torch.mps.empty_cache()] when
    it returns "mps", and nothing beyond finding the tag when it returns
    "cpu": there it returns [None], makes no further call and leaves the
    caches as they were.  An exception it raises is the one the release it
    called raised. *)
Theorem empty_cache_spec (w : World) :
  (result get_device_type w = Ok "cuda" ->
   empty_cache w = cuda_empty_cache (after get_device_type w)) /\
  (result get_device_type w = Ok "mps" ->
   empty_cache w = mps_empty_cache (after get_device_type w)) /\
  (result get_device_type w = Ok "cpu" ->
   empty_cache w = (Ok tt, after get_device_type w) /\
   caches (after empty_cache w) = caches w) /\
  (forall e,
     result empty_cache w = Raised e ->
     result get_device_type w = Ok "cuda" /\
     result cuda_empty_cache (after get_device_type w) = Raised e \/
     result get_device_type w = Ok "mps" /\
     result mps_empty_cache (after get_device_type w) = Raised e).
Proof.
  rewrite result_get_device_type. unfold result at 1, after at 4.
  rewrite empty_cache_run.
  destruct (selected_cases w) as [H|[H|H]]; rewrite H; simpl;
    repeat split; try discriminate; auto.
  rewrite after_get_device_type. reflexivity.
Qed.

Lemma empty_cache_spec_witness :
  empty_cache (Fake.boot Fake.cpu_only 4096 512)
  = (Ok tt, after get_device_type (Fake.boot Fake.cpu_only 4096 512)) /\
  caches (after empty_cache (Fake.boot Fake.cpu_only 4096 512))
  = caches (Fake.boot Fake.cpu_only 4096 512).
Proof.
  apply (proj1 (proj2 (proj2 (empty_cache_spec _)))). reflexivity.
Defined.

(** *** Every computation of the module is a function of the responses *)

Create HintDb stable discriminated.

Section Stable.

Context {A B : Type}.

Lemma stable_ret (a : A) : stable (ret a).
Proof. intros w1 w2 H. split; reflexivity. Qed.

Lemma stable_raise (e : exception) : stable (@raise World A e).
Proof. intros w1 w2 H. split; reflexivity. Qed.

Lemma stable_ask (f : Responses -> A) : stable (ask f).
Proof.
  intros w1 w2 H. unfold result, after, ask; simpl. now rewrite H.
Qed.

Lemma stable_answer (f : Responses -> outcome A) : stable (answer f).
Proof.
  intros w1 w2 H. unfold result, after, answer; simpl. now rewrite H.
Qed.

Lemma stable_bind (m : T A) (k : A -> T B) :
  stable m -> (forall a, stable (k a)) -> stable (bind m k).
Proof.
  intros Hm Hk w1 w2 H.
  destruct (Hm w1 w2 H) as [Hr H1]. destruct (Hm w2 w1 (eq_sym H)) as [_ H2].
  unfold result, after, bind in *.
  destruct (m w1) as [[a|e] w1'], (m w2) as [[a'|e'] w2'];
    simpl in *; try discriminate.
  - injection Hr as <-.
    destruct (Hk a w1' w2') as [Hkr Hk1]; [congruence|].
    unfold result, after in *. split; [exact Hkr | now rewrite Hk1].
  - injection Hr as <-. split; [reflexivity | exact H1].
Qed.

Lemma stable_try (m : T A) (classes : list exc_class)
      (h : exception -> T A) :
  stable m -> (forall e, stable (h e)) -> stable (try_except m classes h).
Proof.
  intros Hm Hh w1 w2 H.
  destruct (Hm w1 w2 H) as [Hr H1]. destruct (Hm w2 w1 (eq_sym H)) as [_ H2].
  unfold result, after, try_except in *.
  destruct (m w1) as [[a|e] w1'], (m w2) as [[a'|e'] w2'];
    simpl in *; try discriminate.
  - split; [exact Hr | exact H1].
  - injection Hr as <-. destruct (except_matches classes e).
    + destruct (Hh e w1' w2') as [Hkr Hk1]; [congruence|].
      unfold result, after in *. split; [exact Hkr | now rewrite Hk1].
    + split; [reflexivity | exact H1].
Qed.

Lemma stable_if (b : bool) (m1 m2 : T A) :
  stable m1 -> stable m2 -> stable (if b then m1 else m2).
Proof. now destruct b. Qed.

End Stable.

Lemma stable_log (c : call) : stable (log c).
Proof. intros w1 w2 H. split; reflexivity. Qed.

Lemma stable_release_cuda_cache : stable release_cuda_cache.
Proof. intros w1 w2 H. split; reflexivity. Qed.

Lemma stable_release_mps_cache : stable release_mps_cache.
Proof. intros w1 w2 H. split; reflexivity. Qed.

#[local] Hint Resolve stable_ret stable_raise stable_ask stable_answer
  stable_bind stable_try stable_if stable_log stable_release_cuda_cache
  stable_release_mps_cache : stable.

Lemma stable_with_autocast {A} (d : string) (body : T A) :
  stable body -> stable (with_autocast d body).
Proof.
  intros Hb. unfold with_autocast.
  repeat (apply stable_bind; [auto with stable | intros _]).
  intros w1 w2 H.
  destruct (Hb w1 w2 H) as [Hr H1]. destruct (Hb w2 w1 (eq_sym H)) as [_ H2].
  unfold result, after in *.
  destruct (body w1) as [[x|ex] w1'], (body w2) as [[x'|ex'] w2'];
    simpl in *; try discriminate; injection Hr as <-.
  - assert (S : stable (log (AutocastExit d) ;;
                        answer (fun r => autocast_exit_resp r d) ;;
                        @ret World A x)) by auto with stable.
    destruct (S w1' w2') as [Sr S1]; [congruence|].
    unfold result, after in *. split; [exact Sr | now rewrite S1].
  - assert (S : stable (log (AutocastExit d) ;;
                        answer (fun r => autocast_exit_resp r d) ;;
                        @raise World A ex)) by auto with stable.
    destruct (S w1' w2') as [Sr S1]; [congruence|].
    unfold result, after in *. split; [exact Sr | now rewrite S1].
Qed.

#[local] Hint Resolve stable_with_autocast : stable.

(** Unfold one function of the module and discharge [stable], constructor
    by constructor. *)
Ltac stable_steps :=
  repeat first
    [ apply stable_bind; [|intros ?]
    | apply stable_try; [|intros ?]
    | apply stable_if
    | apply stable_with_autocast
    | solve [auto with stable] ].

Lemma stable_get_device_type : stable get_device_type.
Proof.
  unfold get_device_type, cuda_is_available, hasattr_backends_mps,
    backends_mps_is_available.
  stable_steps.
Qed.

#[local] Hint Resolve stable_get_device_type : stable.

Lemma stable_invoke (f : func) : stable (invoke f).
Proof.
  destruct f; unfold invoke, fmap;
    unfold get_device, get_device_count, get_device_capability, empty_cache,
      get_autocast_device_type, get_autocast_device_type_at,
      autocast_device_type_of, fmap,
      new_device, cuda_device_count, cuda_get_device_capability,
      cuda_empty_cache, mps_empty_cache;
    stable_steps.
Qed.

(** *** Only [empty_cache] touches the allocator caches *)

Section KeepsCaches.

Context {A B : Type}.

Lemma keeps_ret (a : A) : keeps_caches (ret a).
Proof. intros w. split; reflexivity. Qed.

Lemma keeps_raise (e : exception) : keeps_caches (@raise World A e).
Proof. intros w. split; reflexivity. Qed.

Lemma keeps_ask (f : Responses -> A) : keeps_caches (ask f).
Proof. intros w. split; reflexivity. Qed.

Lemma keeps_answer (f : Responses -> outcome A) : keeps_caches (answer f).
Proof. intros w. split; reflexivity. Qed.

Lemma keeps_bind (m : T A) (k : A -> T B) :
  keeps_caches m -> (forall a, keeps_caches (k a)) -> keeps_caches (bind m k).
Proof.
  intros Hm Hk w. destruct (Hm w) as [Hc Hp].
  unfold after, bind in *.
  destruct (m w) as [[a|e] w']; simpl in *; [|now split].
  destruct (Hk a w') as [Hc' Hp']. unfold after in *.
  split; [now rewrite Hc' | now rewrite Hp'].
Qed.

Lemma keeps_try (m : T A) (classes : list exc_class)
      (h : exception -> T A) :
  keeps_caches m -> (forall e, keeps_caches (h e)) ->
  keeps_caches (try_except m classes h).
Proof.
  intros Hm Hh w. destruct (Hm w) as [Hc Hp].
  unfold after, try_except in *.
  destruct (m w) as [[a|e] w']; simpl in *; [now split|].
  destruct (except_matches classes e); [|now split].
  destruct (Hh e w') as [Hc' Hp']. unfold after in *.
  split; [now rewrite Hc' | now rewrite Hp'].
Qed.

Lemma keeps_if (b : bool) (m1 m2 : T A) :
  keeps_caches m1 -> keeps_caches m2 -> keeps_caches (if b then m1 else m2).
Proof. now destruct b. Qed.

End KeepsCaches.

Lemma keeps_log (c : call) : keeps_caches (log c).
Proof. intros w. split; reflexivity. Qed.

Create HintDb keeps discriminated.

#[local] Hint Resolve keeps_ret keeps_raise keeps_ask keeps_answer keeps_bind
  keeps_try keeps_if keeps_log : keeps.

Lemma keeps_with_autocast {A} (d : string) (body : T A) :
  keeps_caches body -> keeps_caches (with_autocast d body).
Proof.
  intros Hb. unfold with_autocast.
  repeat (apply keeps_bind; [auto with keeps | intros _]).
  intros w. destruct (Hb w) as [Hc Hp]. unfold after in *.
  destruct (body w) as [[x|ex] w']; simpl in *.
  - assert (K : keeps_caches (log (AutocastExit d) ;;
                              answer (fun r => autocast_exit_resp r d) ;;
                              @ret World A x)) by auto with keeps.
    destruct (K w') as [Kc Kp]. unfold after in *.
    split; [now rewrite Kc | now rewrite Kp].
  - assert (K : keeps_caches (log (AutocastExit d) ;;
                              answer (fun r => autocast_exit_resp r d) ;;
                              @raise World A ex)) by auto with keeps.
    destruct (K w') as [Kc Kp]. unfold after in *.
    split; [now rewrite Kc | now rewrite Kp].
Qed.

Ltac keeps_steps :=
  repeat first
    [ apply keeps_bind; [|intros ?]
    | apply keeps_try; [|intros ?]
    | apply keeps_if
    | apply keeps_with_autocast
    | solve [auto with keeps] ].

Lemma keeps_get_device_type : keeps_caches get_device_type.
Proof.
  unfold get_device_type, cuda_is_available, hasattr_backends_mps,
    backends_mps_is_available.
  keeps_steps.
Qed.

#[local] Hint Resolve keeps_get_device_type : keeps.

Lemma keeps_invoke (f : func) : f <> EmptyCache -> keeps_caches (invoke f).
Proof.
  intros Hf.
  destruct f; try congruence; unfold invoke, fmap;
    unfold get_device, get_device_count, get_device_capability,
      get_autocast_device_type, get_autocast_device_type_at,
      autocast_device_type_of, fmap,
      new_device, cuda_device_count, cuda_get_device_capability;
    keeps_steps.
Qed.

(** What [empty_cache] does to the caches: the cache of the selected
    accelerator is released when its release call returns. *)
Lemma empty_cache_caches (w : World) :
  caches (after empty_cache w)
  = if selected (responses w) =? "cuda" then
      if is_ok (cuda_cache_clear (responses w)) then (0%N, mps_cached w)
      else caches w
    else if selected (responses w) =? "mps" then
      if is_ok (mps_cache_clear (responses w)) then (cuda_cached w, 0%N)
      else caches w
    else caches w.
Proof.
  unfold after. rewrite empty_cache_run, after_get_device_type.
  destruct (selected_cases w) as [H|[H|H]]; rewrite H; simpl.
  - rewrite cuda_empty_cache_run. simpl.
    destruct (cuda_cache_clear (responses w)); reflexivity.
  - rewrite mps_empty_cache_run. simpl.
    destruct (mps_cache_clear (responses w)); reflexivity.
  - reflexivity.
Qed.

Lemma after_fmap {A B} (g : A -> B) (m : T A) (w : World) :
  after (fmap g m) w = after m w.
Proof.
  unfold after, fmap, bind, ret. destruct (m w) as [[a|e] w']; reflexivity.
Qed.

Lemma empty_cache_twice (w : World) :
  caches (after empty_cache (after empty_cache w))
  = caches (after empty_cache w).
Proof.
  assert (R : responses (after empty_cache w) = responses w).
  { pose proof (stable_invoke EmptyCache w w eq_refl) as [_ R].
    simpl in R. now rewrite after_fmap in R. }
  rewrite (empty_cache_caches (after empty_cache w)), R.
  pose proof (empty_cache_caches w) as E. unfold caches in *.
  destruct (selected (responses w) =? "cuda").
  - destruct (is_ok (cuda_cache_clear (responses w)));
      injection E as -> ->; reflexivity.
  - destruct (selected (responses w) =? "mps"); [|reflexivity].
    destruct (is_ok (mps_cache_clear (responses w)));
      injection E as -> ->; reflexivity.
Qed.

(** C8. The module has no state of its own.  What a function returns (or
    raises) is determined by the runtime's responses: two worlds with the
    same responses, whatever was called before and whatever the caches
    hold, give equal results.  No function changes the responses, so a call
    leaves the result of every later call as it was; and calling a
    function a second time leaves the caches as the first call left
    them. *)
Theorem module_calls_independent :
  (forall f w1 w2,
      responses w1 = responses w2 ->
      result (invoke f) w1 = result (invoke f) w2) /\
  (forall f g w,
      result (invoke g) (after (invoke f) w) = result (invoke g) w) /\
  (forall f w, responses (after (invoke f) w) = responses w) /\
  (forall f w,
      caches (after (invoke f) (after (invoke f) w))
      = caches (after (invoke f) w)).
Proof.
  repeat split.
  - intros f w1 w2 H. apply (stable_invoke f w1 w2 H).
  - intros f g w. apply (stable_invoke g).
    apply (stable_invoke f w w eq_refl).
  - intros f w. apply (stable_invoke f w w eq_refl).
  - intros f w.
    assert (D : f = EmptyCache \/ f <> EmptyCache)
      by (destruct f; auto; right; discriminate).
    destruct D as [->|D].
    + simpl. rewrite !after_fmap. apply empty_cache_twice.
    + unfold caches.
      destruct (keeps_invoke f D (after (invoke f) w)) as [-> ->].
      reflexivity.
Qed.

Lemma module_calls_independent_witness :
  result (invoke GetAutocastDeviceType)
    (Fake.boot (Fake.mps (Ok tt) (Ok tt) (Raised Fake.unsupported) (Ok tt))
               4096 512)
  = result (invoke GetAutocastDeviceType)
      (after (invoke EmptyCache)
         (Fake.boot (Fake.mps (Ok tt) (Ok tt) (Raised Fake.unsupported)
                              (Ok tt)) 4096 512)).
Proof.
  apply (proj1 module_calls_independent). reflexivity.
Defined.

(* ===================================================================== *)
(** ** The calls the module makes *)
(* ===================================================================== *)

Lemma autocast_probe_after (w : World) :
  after autocast_probe w = logged w (probe_calls (responses w)).
Proof.
  unfold after, autocast_probe, with_autocast, probe_calls, bind, log, answer,
    ret, raise, logged. simpl.
  destruct (autocast_new (responses w) "mps"); [|reflexivity].
  destruct (autocast_enter_resp (responses w) "mps"); simpl;
    [|now rewrite <- app_assoc].
  destruct (autocast_exit_resp (responses w) "mps"); simpl;
    now rewrite <- !app_assoc.
Qed.

Lemma get_autocast_device_type_after (w : World) :
  after get_autocast_device_type w
  = if selected (responses w) =? "mps"
    then after autocast_probe (after get_device_type w)
    else after get_device_type w.
Proof.
  unfold after at 1.
  destruct (selected_cases w) as [H|[H|H]].
  1, 3: rewrite get_autocast_device_type_direct, H by auto; reflexivity.
  rewrite (get_autocast_device_type_mps w H), H. simpl.
  change (after autocast_probe (after get_device_type w))
    with (snd (autocast_probe (after get_device_type w))).
  destruct (autocast_probe _) as [[u|e] w'];
    [|destruct (recoverable e)]; reflexivity.
Qed.

(** One equation for the call log after any function of the module. *)
Lemma calls_invoke (f : func) (w : World) :
  calls (after (invoke f) w) = calls w ++ trace f (responses w).
Proof.
  unfold trace.
  destruct f; unfold invoke; rewrite after_fmap.
  - rewrite after_get_device_type. simpl. now rewrite app_nil_r.
  - unfold after, get_device.
    erewrite bind_run by apply get_device_type_run.
    destruct (selected_cases w) as [H|[H|H]]; rewrite H; simpl;
      now rewrite <- app_assoc.
  - unfold after, get_device_count.
    erewrite bind_run by apply get_device_type_run.
    destruct (selected_cases w) as [H|[H|H]]; rewrite H; simpl;
      rewrite <- ?app_assoc, ?app_nil_r; reflexivity.
  - unfold after, get_device_capability.
    erewrite bind_run by apply get_device_type_run.
    destruct (selected_cases w) as [H|[H|H]]; rewrite H; simpl;
      rewrite <- ?app_assoc, ?app_nil_r; reflexivity.
  - unfold after. rewrite empty_cache_run, after_get_device_type.
    destruct (selected_cases w) as [H|[H|H]]; rewrite H; simpl.
    + rewrite cuda_empty_cache_run. simpl.
      destruct (cuda_cache_clear (responses w)); simpl;
        now rewrite <- app_assoc.
    + rewrite mps_empty_cache_run. simpl.
      destruct (mps_cache_clear (responses w)); simpl;
        now rewrite <- app_assoc.
    + now rewrite app_nil_r.
  - rewrite get_autocast_device_type_after.
    destruct (selected (responses w) =? "mps").
    + rewrite autocast_probe_after, after_get_device_type. simpl.
      now rewrite <- app_assoc.
    + rewrite after_get_device_type. simpl. now rewrite app_nil_r.
Qed.

Lemma selected_cuda (r : Responses) :
  selected r = "cuda" <-> cuda_available r = true.
Proof.
  unfold selected. destruct (cuda_available r); [tauto|].
  destruct (backends_mps r) as [[|]|]; split; discriminate.
Qed.

Lemma selected_mps (r : Responses) :
  selected r = "mps"
  <-> cuda_available r = false /\ backends_mps r = Some true.
Proof.
  unfold selected. destruct (cuda_available r).
  - split; [discriminate | intros [? _]; discriminate].
  - destruct (backends_mps r) as [[|]|]; split;
      try discriminate; try tauto; intros [_ ?]; discriminate.
Qed.

(** Split on the tag and bring [get_autocast_device_type] into the form
    of its branch. *)
Ltac autocast_cases w H :=
  unfold result, after;
  destruct (selected_cases w) as [H|[H|H]];
  [ rewrite get_autocast_device_type_direct by auto
  | rewrite (get_autocast_device_type_mps w H)
  | rewrite get_autocast_device_type_direct by auto ];
  unfold after; rewrite ?get_device_type_run, ?H; cbn [fst snd].

(** X1. The autocast device type follows the device type: it is "cuda"
    exactly when [get_device_type] is "cuda", it is "mps" only when
    [get_device_type] is "mps", and whenever it differs from the device
    type the device type is "mps" and the autocast type "cpu". *)
Theorem autocast_follows_device_type (w : World) :
  (result get_autocast_device_type w = Ok (Some "cuda")
   <-> result get_device_type w = Ok "cuda") /\
  (result get_autocast_device_type w = Ok (Some "mps") ->
   result get_device_type w = Ok "mps") /\
  (forall s,
      result get_autocast_device_type w = Ok (Some s) ->
      result get_device_type w = Ok s \/
      result get_device_type w = Ok "mps" /\ s = "cpu").
Proof.
  autocast_cases w H.
  1, 3: repeat split; intros; try discriminate; try congruence;
    left; congruence.
  destruct (autocast_probe _) as [[u|e] w']; [|destruct (recoverable e)];
    simpl; repeat split; intros; try discriminate; try congruence.
  - left. congruence.
  - right. split; congruence.
Qed.

Lemma autocast_follows_device_type_witness :
  result get_device_type
    (Fake.boot (Fake.mps (Ok tt) (Ok tt) (Ok tt) (Ok tt)) 0 0) = Ok "mps".
Proof.
  apply (proj1 (proj2 (autocast_follows_device_type _))). reflexivity.
Defined.

(** X2. [get_autocast_device_type] raises [e] exactly when the device
    type is "mps" and the probe raises [e], an exception that is neither a
    [RuntimeError] nor a [TypeError]. *)
Theorem get_autocast_device_type_raises_iff (w : World) (e : exception) :
  result get_autocast_device_type w = Raised e
  <-> result get_device_type w = Ok "mps" /\
      result autocast_probe (after get_device_type w) = Raised e /\
      recoverable e = false.
Proof.
  autocast_cases w H.
  1, 3: split; [discriminate | intros [? _]; discriminate].
  destruct (autocast_probe _) as [[u|e'] w']; simpl.
  - split; [discriminate | intros (_ & ? & _); discriminate].
  - destruct (recoverable e') eqn:R; simpl; split.
    + discriminate.
    + intros (_ & E & R'). congruence.
    + intros E. injection E as <-. auto.
    + intros (_ & E & _). injection E as <-. reflexivity.
Qed.

Lemma get_autocast_device_type_raises_iff_witness :
  result get_autocast_device_type
    (Fake.boot (Fake.mps (Ok tt) (Ok tt) (Raised Fake.interrupted) (Ok tt))
               0 0) = Raised Fake.interrupted.
Proof.
  apply (proj2 (get_autocast_device_type_raises_iff _ _)).
  repeat split.
Defined.

(** X3. [get_device_capability] raises [e] exactly when CUDA is reported
    available and [torch.cuda.get_device_capability()] raises [e]; on a
    machine without CUDA it cannot raise. *)
Theorem get_device_capability_raises_iff (w : World) (e : exception) :
  result get_device_capability w = Raised e
  <-> cuda_available (responses w) = true /\
      cuda_capability (responses w) = Raised e.
Proof.
  rewrite <- selected_cuda.
  unfold get_device_capability. probe_type w.
  destruct Hsel as [H|[H|H]]; rewrite H; simpl.
  - tauto.
  - split; [discriminate | intros [? _]; discriminate].
  - split; [discriminate | intros [? _]; discriminate].
Qed.

Lemma get_device_capability_raises_iff_witness :
  cuda_available (responses (Fake.boot Fake.cuda_no_device 0 0)) = true /\
  cuda_capability (responses (Fake.boot Fake.cuda_no_device 0 0))
  = Raised Fake.no_gpus.
Proof.
  apply (proj1 (get_device_capability_raises_iff _ _)). reflexivity.
Defined.

(** X4. [get_device_count] returns 0 exactly when CUDA is reported
    available with zero devices; in every world it returns 1 or the count
    the CUDA runtime reports. *)
Theorem get_device_count_zero_iff (w : World) :
  (result get_device_count w = Ok 0%Z
   <-> cuda_available (responses w) = true /\
       cuda_devices (responses w) = 0%Z) /\
  (result get_device_count w = Ok 1%Z \/
   result get_device_count w = Ok (cuda_devices (responses w))).
Proof.
  rewrite <- selected_cuda.
  unfold get_device_count. probe_type w.
  destruct Hsel as [H|[H|H]]; rewrite H; simpl; split; auto.
  - split; [intros E; injection E as ->; auto | intros [_ ->]; reflexivity].
  - split; [discriminate | intros [? _]; discriminate].
  - split; [discriminate | intros [? _]; discriminate].
Qed.

Lemma get_device_count_zero_iff_witness :
  result get_device_count (Fake.boot Fake.cuda_no_device 0 0) = Ok 0%Z.
Proof.
  apply (proj2 (proj1 (get_device_count_zero_iff _))). split; reflexivity.
Defined.

(** X5. Where CUDA is reported available, no function of the module
    looks for the MPS backend or uses it: no [hasattr], no
    [is_available()] of the backend, no [torch.mps.empty_cache()], no
    autocast scope for "mps". *)
Theorem cuda_available_skips_mps (w : World) (f : func) :
  cuda_available (responses w) = true ->
  exists cs,
    calls (after (invoke f) w) = calls w ++ cs /\
    none_of mps_lookup cs = true /\
    none_of mps_use cs = true.
Proof.
  intros Ha. exists (trace f (responses w)).
  split; [apply calls_invoke|].
  unfold trace, selection_calls, selected. rewrite Ha.
  destruct f; split; reflexivity.
Qed.

Lemma cuda_available_skips_mps_witness :
  exists cs,
    calls (after (invoke EmptyCache)
             (Fake.boot (Fake.cuda 2 (9, 0)%Z (Some true)) 4096 512))
    = [] ++ cs /\
    none_of mps_lookup cs = true /\
    none_of mps_use cs = true.
Proof.
  apply (cuda_available_skips_mps
           (Fake.boot (Fake.cuda 2 (9, 0)%Z (Some true)) 4096 512)
           EmptyCache).
  reflexivity.
Defined.

(** X6. Unless [get_device_type] returns "mps", no function of the module
    calls [torch.mps.empty_cache()] or opens an autocast scope for "mps":
    on a torch without the MPS backend, or with the backend unavailable,
    those are never reached. *)
Theorem mps_used_only_when_selected (w : World) (f : func) :
  result get_device_type w <> Ok "mps" ->
  exists cs,
    calls (after (invoke f) w) = calls w ++ cs /\
    none_of mps_use cs = true.
Proof.
  rewrite result_get_device_type. intros Hn.
  exists (trace f (responses w)). split; [apply calls_invoke|].
  unfold trace, selection_calls, selected in *.
  destruct (cuda_available (responses w)),
    (backends_mps (responses w)) as [[|]|];
    try (exfalso; apply Hn; reflexivity);
    destruct f; reflexivity.
Qed.

Lemma mps_used_only_when_selected_witness :
  exists cs,
    calls (after (invoke GetAutocastDeviceType)
             (Fake.boot Fake.cpu_old_torch 0 0)) = [] ++ cs /\
    none_of mps_use cs = true.
Proof.
  apply (mps_used_only_when_selected (Fake.boot Fake.cpu_old_torch 0 0)
           GetAutocastDeviceType).
  vm_compute. discriminate.
Defined.

(** X7. Where CUDA is reported unavailable, the only call into
    [torch.cuda] any function makes is [is_available()]: the device count,
    the capability and the CUDA cache release are never asked for. *)
Theorem cuda_used_only_when_available (w : World) (f : func) :
  cuda_available (responses w) = false ->
  exists cs,
    calls (after (invoke f) w) = calls w ++ cs /\
    none_of cuda_use cs = true.
Proof.
  intros Ha. exists (trace f (responses w)).
  split; [apply calls_invoke|].
  unfold trace, selection_calls, selected, probe_calls. rewrite Ha.
  destruct (backends_mps (responses w)) as [[|]|]; destruct f;
    try reflexivity.
  simpl.
  destruct (autocast_new (responses w) "mps"); [|reflexivity].
  destruct (autocast_enter_resp (responses w) "mps"); reflexivity.
Qed.

Lemma cuda_used_only_when_available_witness :
  exists cs,
    calls (after (invoke GetDeviceCapability) (Fake.boot Fake.cpu_only 0 0))
    = [] ++ cs /\
    none_of cuda_use cs = true.
Proof.
  apply (cuda_used_only_when_available (Fake.boot Fake.cpu_only 0 0)
           GetDeviceCapability).
  reflexivity.
Defined.

(** X8. Nothing is cached between calls: every call of every function
    starts by asking [torch.cuda.is_available()] again, and in two worlds
    with the same responses (such as before and after an earlier call) a
    function makes the same sequence of runtime calls. *)
Theorem every_call_probes_again (f : func) (w1 w2 : World) :
  responses w1 = responses w2 ->
  exists cs,
    calls (after (invoke f) w1) = calls w1 ++ CudaIsAvailable :: cs /\
    calls (after (invoke f) w2) = calls w2 ++ CudaIsAvailable :: cs.
Proof.
  intros H. rewrite !calls_invoke, <- H.
  assert (E : exists cs, trace f (responses w1) = CudaIsAvailable :: cs).
  { unfold trace, selection_calls.
    destruct (cuda_available (responses w1)); [|
      destruct (backends_mps (responses w1))]; simpl; eexists; reflexivity. }
  destruct E as [cs ->]. exists cs. split; reflexivity.
Qed.

Lemma every_call_probes_again_witness :
  exists cs,
    calls (after (invoke GetDeviceCount)
             (Fake.boot (Fake.cuda 2 (9, 0)%Z None) 0 0))
    = [] ++ CudaIsAvailable :: cs /\
    calls (after (invoke GetDeviceCount)
             (after (invoke GetDeviceCount)
                (Fake.boot (Fake.cuda 2 (9, 0)%Z None) 0 0)))
    = [CudaIsAvailable; CudaDeviceCount] ++ CudaIsAvailable :: cs.
Proof.
  apply (every_call_probes_again GetDeviceCount
           (Fake.boot (Fake.cuda 2 (9, 0)%Z None) 0 0)
           (after (invoke GetDeviceCount)
              (Fake.boot (Fake.cuda 2 (9, 0)%Z None) 0 0))).
  reflexivity.
Defined.

(** X9. [get_autocast_device_type] opens an autocast scope only when the
    device type is "mps", and then at most one, built for "mps"; a scope
    that was entered is always left again, whatever leaving it does, and a
    scope that could not be built or entered is not left. *)
Theorem autocast_scope_balanced (w : World) :
  (result get_device_type w <> Ok "mps" ->
   calls (after get_autocast_device_type w)
   = calls (after get_device_type w)) /\
  (result get_device_type w = Ok "mps" ->
   (forall e,
       autocast_new (responses w) "mps" = Raised e ->
       calls (after get_autocast_device_type w)
       = calls (after get_device_type w) ++ [Autocast "mps"]) /\
   (forall e,
       autocast_new (responses w) "mps" = Ok tt ->
       autocast_enter_resp (responses w) "mps" = Raised e ->
       calls (after get_autocast_device_type w)
       = calls (after get_device_type w)
           ++ [Autocast "mps"; AutocastEnter "mps"]) /\
   (autocast_new (responses w) "mps" = Ok tt ->
    autocast_enter_resp (responses w) "mps" = Ok tt ->
    calls (after get_autocast_device_type w)
    = calls (after get_device_type w)
        ++ [Autocast "mps"; AutocastEnter "mps"; AutocastExit "mps"])).
Proof.
  rewrite result_get_device_type, get_autocast_device_type_after.
  destruct (selected_cases w) as [H|[H|H]]; rewrite H; simpl.
  1, 3: split; [reflexivity | discriminate].
  split; [intros Hn; exfalso; apply Hn; reflexivity | intros _].
  rewrite autocast_probe_after, after_get_device_type. simpl.
  unfold probe_calls.
  repeat split.
  - intros e ->. reflexivity.
  - intros e -> ->. reflexivity.
  - intros -> ->. reflexivity.
Qed.

Lemma autocast_scope_balanced_witness :
  calls (after get_autocast_device_type
           (Fake.boot (Fake.mps (Ok tt) (Ok tt) (Raised Fake.unsupported)
                                (Ok tt)) 0 0))
  = calls (after get_device_type
             (Fake.boot (Fake.mps (Ok tt) (Ok tt) (Raised Fake.unsupported)
                                  (Ok tt)) 0 0))
      ++ [Autocast "mps"; AutocastEnter "mps"; AutocastExit "mps"].
Proof.
  apply (proj2 (proj2 (proj2 (autocast_scope_balanced
           (Fake.boot (Fake.mps (Ok tt) (Ok tt) (Raised Fake.unsupported)
                                (Ok tt)) 0 0)) eq_refl)));
    reflexivity.
Defined.



(** X11. The five query functions are read-only on the allocator caches:
    only [empty_cache] releases anything; in particular the autocast probe
    of [get_autocast_device_type] does not. *)
Theorem queries_keep_caches (f : func) (w : World) :
  f <> EmptyCache ->
  caches (after (invoke f) w) = caches w.
Proof.
  intros Hf. unfold caches.
  destruct (keeps_invoke f Hf w) as [-> ->]. reflexivity.
Qed.

Lemma queries_keep_caches_witness :
  caches (after (invoke GetAutocastDeviceType)
            (Fake.boot (Fake.mps (Ok tt) (Ok tt) (Ok tt) (Ok tt)) 4096 512))
  = (4096%N, 512%N).
Proof.
  apply (queries_keep_caches GetAutocastDeviceType
           (Fake.boot (Fake.mps (Ok tt) (Ok tt) (Ok tt) (Ok tt)) 4096 512)).
  discriminate.
Defined.

Lemma result_fmap_raised {A B} (g : A -> B) (m : T A) (w : World) e :
  result (fmap g m) w = Raised e -> result m w = Raised e.
Proof.
  unfold result, fmap, bind, ret. destruct (m w) as [[a|e'] w']; simpl;
    [discriminate|]. intros E. injection E as ->. reflexivity.
Qed.

Lemma autocast_probe_raised (w : World) (e : exception) :
  result autocast_probe w = Raised e ->
  autocast_new (responses w) "mps" = Raised e \/
  autocast_enter_resp (responses w) "mps" = Raised e \/
  autocast_exit_resp (responses w) "mps" = Raised e.
Proof.
  unfold result, autocast_probe, with_autocast, bind, log, answer, ret.
  simpl.
  destruct (autocast_new (responses w) "mps"); [|simpl; auto].
  destruct (autocast_enter_resp (responses w) "mps"); [|simpl; auto].
  simpl.
  destruct (autocast_exit_resp (responses w) "mps"); simpl;
    [discriminate | auto].
Qed.

(** X12. The module raises nothing of its own: an exception that comes
    out of any of its functions is one that a torch call answered with,
    namely the capability query, one of the two cache releases, or a step
    of the autocast scope for "mps".  In particular [torch.device] never
    rejects the tag and the lookup of a missing [torch.backends.mps] never
    surfaces. *)
Theorem exceptions_come_from_torch (f : func) (w : World) (e : exception) :
  result (invoke f) w = Raised e ->
  cuda_capability (responses w) = Raised e \/
  cuda_cache_clear (responses w) = Raised e \/
  mps_cache_clear (responses w) = Raised e \/
  autocast_new (responses w) "mps" = Raised e \/
  autocast_enter_resp (responses w) "mps" = Raised e \/
  autocast_exit_resp (responses w) "mps" = Raised e.
Proof.
  intros E. destruct f; apply result_fmap_raised in E; revert E.
  - rewrite result_get_device_type. discriminate.
  - unfold get_device. probe_type w.
    destruct Hsel as [H|[H|H]]; rewrite H; discriminate.
  - unfold get_device_count. probe_type w.
    destruct Hsel as [H|[H|H]]; rewrite H; discriminate.
  - unfold get_device_capability. probe_type w.
    destruct Hsel as [H|[H|H]]; rewrite H; simpl;
      [auto | discriminate | discriminate].
  - unfold result. rewrite empty_cache_run, after_get_device_type.
    destruct (selected_cases w) as [H|[H|H]]; rewrite H; simpl.
    + rewrite cuda_empty_cache_run. simpl.
      destruct (cuda_cache_clear (responses w)); simpl;
        [discriminate | auto].
    + rewrite mps_empty_cache_run. simpl.
      destruct (mps_cache_clear (responses w)); simpl;
        [discriminate | auto].
    + discriminate.
  - autocast_cases w H; try discriminate.
    pose proof (autocast_probe_raised
                  (logged w (selection_calls (responses w)))) as P.
    unfold result in P.
    destruct (autocast_probe _) as [[u|e'] w']; simpl; [discriminate|].
    destruct (recoverable e'); simpl; [discriminate|].
    intros E. injection E as <-.
    destruct (P e' eq_refl) as [Q|[Q|Q]]; simpl in Q; auto 10.
Qed.

Lemma exceptions_come_from_torch_witness :
  cuda_capability Fake.cuda_no_device = Raised Fake.no_gpus \/
  cuda_cache_clear Fake.cuda_no_device = Raised Fake.no_gpus \/
  mps_cache_clear Fake.cuda_no_device = Raised Fake.no_gpus \/
  autocast_new Fake.cuda_no_device "mps" = Raised Fake.no_gpus \/
  autocast_enter_resp Fake.cuda_no_device "mps" = Raised Fake.no_gpus \/
  autocast_exit_resp Fake.cuda_no_device "mps" = Raised Fake.no_gpus.
Proof.
  apply (exceptions_come_from_torch GetDeviceCapability
           (Fake.boot Fake.cuda_no_device 0 0) Fake.no_gpus).
  reflexivity.
Defined.

(* ===================================================================== *)
(** ** Scenarios *)
(* ===================================================================== *)

(** The [except] clause goes by class, subclasses included. *)
Example recoverable_classes :
  map (fun c => recoverable (Raise_ c ""))
      [RuntimeError; NotImplementedError; OutOfMemoryError; TypeError;
       AttributeError; AssertionError; KeyboardInterrupt; Exception]
  = [true; true; true; true; false; false; false; false].
Proof. reflexivity. Qed.

(** CUDA unavailable, MPS available. *)
Example scenario_mps :
  let w := Fake.boot (Fake.mps (Ok tt) (Ok tt) (Ok tt) (Ok tt)) 0 0 in
  result get_device_type w = Ok "mps" /\
  result get_device w = Ok (Device "mps" None) /\
  result get_device_count w = Ok 1%Z /\
  result get_device_capability w = Ok (8, 0)%Z /\
  get_autocast_device_type w
  = (Ok (Some "mps"),
     logged w [CudaIsAvailable; HasattrBackendsMps; BackendsMpsIsAvailable;
               Autocast "mps"; AutocastEnter "mps"; AutocastExit "mps"]).
Proof. repeat split. Qed.

(** CUDA available with two devices of capability (9, 0). *)
Example scenario_cuda :
  let w := Fake.boot (Fake.cuda 2 (9, 0)%Z (Some true)) 4096 0 in
  result get_device_type w = Ok "cuda" /\
  result get_device_count w = Ok 2%Z /\
  result get_device_capability w = Ok (9, 0)%Z /\
  result get_autocast_device_type w = Ok (Some "cuda") /\
  result empty_cache w = Ok tt /\
  caches (after empty_cache w) = (0%N, 0%N) /\
  calls (after empty_cache w) = [CudaIsAvailable; CudaEmptyCache].
Proof. repeat split. Qed.

(** No accelerator. *)
Example scenario_cpu :
  let w := Fake.boot Fake.cpu_only 4096 512 in
  result get_device_type w = Ok "cpu" /\
  result get_device_count w = Ok 1%Z /\
  result get_device_capability w = Ok (8, 0)%Z /\
  result get_autocast_device_type w = Ok (Some "cpu") /\
  empty_cache w
  = (Ok tt,
     logged w [CudaIsAvailable; HasattrBackendsMps; BackendsMpsIsAvailable]).
Proof. repeat split. Qed.

(** An MPS probe that fails in [__enter__] with a [RuntimeError] is
    caught, after the scope was built and entered but not left. *)
Example scenario_mps_no_autocast :
  let w := Fake.boot (Fake.mps (Ok tt) (Raised Fake.unsupported) (Ok tt)
                               (Ok tt)) 0 0 in
  get_autocast_device_type_at w
  = (Ok (Line104, Some "cpu"),
     logged w [CudaIsAvailable; HasattrBackendsMps; BackendsMpsIsAvailable;
               Autocast "mps"; AutocastEnter "mps"]).
Proof. reflexivity. Qed.

(** An exception of the probe outside the two classes is not caught. *)
Example scenario_mps_interrupted :
  let w := Fake.boot (Fake.mps (Ok tt) (Raised Fake.interrupted) (Ok tt)
                               (Ok tt)) 0 0 in
  result get_autocast_device_type w = Raised Fake.interrupted.
Proof. reflexivity. Qed.

(** MPS available on a torch that has [torch.backends.mps] but not yet
    [torch.mps]: [empty_cache] raises the [AttributeError]. *)
Example scenario_mps_no_empty_cache :
  let w := Fake.boot (Fake.mps (Raised Fake.unsupported) (Ok tt) (Ok tt)
                               (Raised Fake.no_torch_mps)) 0 512 in
  result get_device_type w = Ok "mps" /\
  result empty_cache w = Raised Fake.no_torch_mps /\
  caches (after empty_cache w) = (0%N, 512%N).
Proof. repeat split. Qed.
